(** * Leaking-bucket simulation ([src/bucket_sim.ipynb])

    A shallow embedding of the notebook's code cell: the constant [GRAV],
    the dataclasses [Bucket] and [BucketSystem], the derivative function
    [BucketSystem.ode] and the driver [run_simulation], followed by the
    properties of the specification that concern them.

    Numbers.  The specification types the time, the level and the
    derivative as real numbers; in the first embedding Python's [float]
    is read as [R], so [9.8], [5.0], [10.0] and [0.01] are the real
    numbers they denote and rounding is outside that model.  The module
    [Binary64] embeds the plant model a second time with the arithmetic
    Python runs, IEEE 754 binary64 with round to nearest even, on
    primitive floats; the properties that depend on rounding, on
    not-a-number or on the infinities are settled there.

    Effects.  Python code may raise and may touch interpreter state.  A
    computation is a function from a world [W] to an outcome and a new
    world; [flow_in] and the external [solve_ivp] are arbitrary such
    computations, and [ode] and [run_simulation] are written in the
    monad exactly in the order the source evaluates its subexpressions. *)

From Stdlib Require Import Reals Lra Lia String List ZArith.
From Stdlib Require Floats.
From ExtLib Require Import Structures.Monad Structures.MonadExc.
Import ListNotations MonadNotation.
Import PrimFloat.PrimFloatNotations.

Set Warnings "-inexact-float".

Local Open Scope R_scope.
Local Open Scope monad_scope.

(** ** Exceptions and outcomes *)

(** The exception classes the code cell can raise by itself, and
    [OtherError cls] for a class raised by foreign code, named by its
    class name. *)
Inductive exn : Type :=
| ValueError          (* math.sqrt of a negative number: "math domain error" *)
| ZeroDivisionError   (* float division by zero *)
| IndexError          (* list index out of range *)
| TypeError           (* a call that does not match the signature *)
| OtherError (cls : string).

Inductive outcome (T : Type) : Type :=
| Ok (v : T)
| Raise (e : exn).

Arguments Ok {T} v.
Arguments Raise {T} e.

(** The specification's names for error kinds.  [DomainError] is what
    [math.sqrt] raises on a negative argument; no class called
    [ConfigurationError] is defined or raised anywhere in the source. *)
Definition DomainError : exn := ValueError.
Definition ConfigurationError : exn := OtherError "ConfigurationError".

(** ** The interpreter monad *)

Definition M (W T : Type) : Type := W -> outcome T * W.

Section Monad.
Context {W : Type}.

Definition M_ret {T} (v : T) : M W T := fun w => (Ok v, w).

Definition M_bind {T U} (c : M W T) (k : T -> M W U) : M W U :=
  fun w =>
    match c w with
    | (Ok v, w') => k v w'
    | (Raise e, w') => (Raise e, w')
    end.

Definition M_raise {T} (e : exn) : M W T := fun w => (Raise e, w).

Definition M_catch {T} (c : M W T) (handler : exn -> M W T) : M W T :=
  fun w =>
    match c w with
    | (Ok v, w') => (Ok v, w')
    | (Raise e, w') => handler e w'
    end.

#[export] Instance Monad_M : Monad (M W) :=
  {| ret := @M_ret; bind := @M_bind |}.

#[export] Instance Exc_M : MonadExc exn (M W) :=
  {| raise := @M_raise; catch := @M_catch |}.
End Monad.

(** ** Python primitives used by the cell *)

Section Primitives.
Context {W : Type}.

(** [math.sqrt(x)]: raises [ValueError] when [x < 0]. *)
Definition math_sqrt (x : R) : M W R :=
  if Rlt_dec x 0 then raise ValueError else ret (sqrt x).

(** [x / y] on floats: raises [ZeroDivisionError] when [y] is zero. *)
Definition truediv (x y : R) : M W R :=
  if Req_dec_T y 0 then raise ZeroDivisionError else ret (x / y).

(** [l[i]] on a sequence, for a non-negative index. *)
Definition getitem (l : list R) (i : nat) : M W R :=
  match nth_error l i with
  | Some v => ret v
  | None => raise IndexError
  end.
End Primitives.

(** ** The plant model *)

Definition GRAV : R := 9.8.

Record Bucket : Type := { A : R }.

Record BucketSystem (W : Type) : Type :=
  { backet : Bucket;
    flow_in : R -> M W R }.

Arguments backet {W} _.
Arguments flow_in {W} _ _.

Section Plant.
Context {W : Type}.

(** The constructors generated by [@dataclass]: they store their
    arguments and do nothing else (neither class defines
    [__post_init__]). *)
Definition Bucket_init (a : R) : M W Bucket :=
  ret {| A := a |}.

Definition BucketSystem_init (b : Bucket) (f : R -> M W R)
  : M W (BucketSystem W) :=
  ret {| backet := b; flow_in := f |}.

(** [return (self.flow_in(t) - sqrt(2 * GRAV * h)) / self.backet.A] *)
Definition ode (self : BucketSystem W) (t h : R) : M W R :=
  q_in <- flow_in self t ;;
  q_out <- math_sqrt (2 * GRAV * h) ;;
  truediv (q_in - q_out) (A (backet self)).

(** A control input in the sense of the specification: a function of
    time that neither raises nor touches the world. *)
Definition ControlInput (q : R -> R) : R -> M W R :=
  fun t => ret (q t).

Definition System (a : R) (q : R -> R) : BucketSystem W :=
  {| backet := {| A := a |}; flow_in := ControlInput q |}.
End Plant.

(** A callable is stateless when it leaves the world as it found it and
    its outcome does not depend on the world. *)
Definition stateless {W T} (c : M W T) : Prop :=
  (forall w, snd (c w) = w) /\ (forall w w', fst (c w) = fst (c w')).

(** ** The reference law of the specification *)

(** Torricelli's law, [Q_out(t) = sqrt(2 * g * h(t))], and the level's
    rate of change, [dh/dt = (Q_in(t) - Q_out(t)) / A], as the
    specification writes them, with [g = 9.8]. *)
Module Reference.
Definition g : R := 98 / 10.
Definition Q_out (h : R) : R := sqrt (2 * g * h).
Definition dh_dt (Q_in : R -> R) (a t h : R) : R := (Q_in t - Q_out h) / a.
Definition h_eq (q0 : R) : R := q0 ^ 2 / (2 * g).
End Reference.

(** ** The external IVP solver *)

(** Modelled from the spec: the result type [OdeResult] of the external
    solver is imported from SciPy and not declared in the source; its
    fields are the ones section 6 lists and the recorded output of the
    cell shows (success flag, status code, message, sampled times and
    states, evaluation counts). *)
Record OdeResult : Type :=
  { message : string;
    success : bool;
    status : Z;
    sol_t : list R;
    sol_y : list (list R);
    nfev : Z;
    njev : Z;
    nlu : Z }.

(** The derivative function handed to the solver, [fun(t, y)]. *)
Definition ivp_fun (W : Type) : Type := R -> list R -> M W R.

(** [solve_ivp(fun=, t_span=, y0=, max_step=)]: foreign code, which may
    call [fun] any number of times, return a result or raise. *)
Definition solver (W : Type) : Type :=
  ivp_fun W -> R * R -> list R -> R -> M W OdeResult.

(** ** The simulation driver *)

(** A Python value passed as an argument of a call: a number or a pair
    such as [time_span = (5, 5)]. *)
Inductive value : Type :=
| VFloat (x : R)
| VPair (a b : value).

Section Driver.
Context {W : Type}.
Variable solve_ivp : solver W.

Definition run_simulation : M W OdeResult :=
  backet <- Bucket_init 5.0 ;;
  system <- BucketSystem_init backet (fun t => ret 10.0) ;;
  let h0 := 0.0 in
  let t_span := (0, 20) in
  sol <- solve_ivp
           (fun t h => h_0 <- getitem h 0 ;; ode system t h_0)
           t_span
           [h0]
           0.01 ;;
  ret sol.

(** Calling [run_simulation]: its signature, [def run_simulation()],
    has no parameter, so a call with any positional or keyword
    argument raises [TypeError] and the body does not run. *)
Definition call_run_simulation
    (args : list value) (kwargs : list (string * value)) : M W OdeResult :=
  match args, kwargs with
  | [], [] => run_simulation
  | _, _ => raise TypeError
  end.
End Driver.

(** The scenario [run_simulation] fixes in its body. *)
Definition baseline_system {W} : BucketSystem W :=
  {| backet := {| A := 5.0 |}; flow_in := fun t => ret 10.0 |}.

Definition baseline_fun {W} : ivp_fun W :=
  fun t h => h_0 <- getitem h 0 ;; ode baseline_system t h_0.

(** ** Solvers and inputs used as test doubles *)

Definition empty_result : OdeResult :=
  {| message := ""; success := false; status := (-1)%Z;
     sol_t := []; sol_y := []; nfev := 0%Z; njev := 0%Z; nlu := 0%Z |}.

(** A solver that records the numeric arguments of every call it
    receives in the world and reports failure without integrating. *)
Definition recording_solver : solver (list (R * R * list R * R)) :=
  fun f t_span y0 max_step log =>
    (Ok empty_result, log ++ [(fst t_span, snd t_span, y0, max_step)]).

(** A solver that probes the derivative one unit below the initial
    state at the start time, as an adaptive step search may, and lets an
    exception of the derivative function escape, as Python code without
    a handler does. *)
Definition probing_solver : solver unit :=
  fun f t_span y0 max_step =>
    d <- f (fst t_span) (map (fun v => v - 1) y0) ;;
    ret {| message := "probed"; success := true; status := 0%Z;
           sol_t := [fst t_span]; sol_y := [y0];
           nfev := 1%Z; njev := 0%Z; nlu := 0%Z |}.

(** A solver that reports non-success termination in its result. *)
Definition underflow_solver : solver unit :=
  fun f t_span y0 max_step =>
    ret {| message := "Required step size is less than spacing between numbers.";
           success := false; status := (-1)%Z;
           sol_t := [fst t_span]; sol_y := [y0];
           nfev := 8%Z; njev := 0%Z; nlu := 0%Z |}.

(** A callable that counts its calls in the world: not a control input
    in the specification's sense. *)
Definition counting_input : R -> M nat R :=
  fun t n => (Ok (INR n), S n).

(** ** The plant model in binary64

    The same code with Python's own arithmetic.  [*], [-], [/] and
    [sqrt] are the correctly rounded binary64 operations; comparisons
    are the IEEE ones, false on not-a-number, with [-0.0] equal to
    [0.0]. *)
Module Binary64.
Import PrimFloat.
Local Open Scope float_scope.

Section Primitives.
Context {W : Type}.

(** [math.sqrt(x)]: raises [ValueError] when the result is not a number
    although the argument is one, that is when [x < 0] (also for minus
    infinity; [-0.0] and not-a-number pass). *)
Definition math_sqrt (x : float) : M W float :=
  if x <? 0 then raise ValueError else ret (sqrt x).

(** [x / y] on floats: raises [ZeroDivisionError] when [y == 0.0]. *)
Definition truediv (x y : float) : M W float :=
  if y =? 0 then raise ZeroDivisionError else ret (x / y).
End Primitives.

Definition GRAV : float := 9.8.

Record Bucket : Type := { A : float }.

Record BucketSystem (W : Type) : Type :=
  { backet : Bucket;
    flow_in : float -> M W float }.

Arguments backet {W} _.
Arguments flow_in {W} _ _.

Section Plant.
Context {W : Type}.

(** [return (self.flow_in(t) - sqrt(2 * GRAV * h)) / self.backet.A] *)
Definition ode (self : BucketSystem W) (t h : float) : M W float :=
  q_in <- flow_in self t ;;
  q_out <- math_sqrt (2 * GRAV * h) ;;
  truediv (q_in - q_out) (A (backet self)).

Definition ControlInput (q : float -> float) : float -> M W float :=
  fun t => ret (q t).

Definition System (a : float) (q : float -> float) : BucketSystem W :=
  {| backet := {| A := a |}; flow_in := ControlInput q |}.
End Plant.

(** The equilibrium level [q0^2 / (2 g)] evaluated in binary64, the
    square taken as the product [q0 * q0]. *)
Definition h_eq (q0 : float) : float := q0 * q0 / (2 * GRAV).


End Binary64.

(** * Properties *)

(** ** Evaluation lemmas for the primitives and [ode] *)

Section Evaluation.
Context {W : Type}.
Implicit Types (w : W) (a t h x y : R) (q : R -> R).

Lemma math_sqrt_nonneg x w :
  0 <= x -> math_sqrt x w = (Ok (sqrt x), w).
Proof.
  intros Hx. unfold math_sqrt.
  destruct (Rlt_dec x 0) as [Hneg | _]; [lra | reflexivity].
Qed.

Lemma math_sqrt_neg x w :
  x < 0 -> math_sqrt x w = (Raise ValueError, w).
Proof.
  intros Hx. unfold math_sqrt.
  destruct (Rlt_dec x 0) as [_ | Hpos]; [reflexivity | lra].
Qed.

Lemma truediv_nonzero x y w :
  y <> 0 -> truediv x y w = (Ok (x / y), w).
Proof.
  intros Hy. unfold truediv.
  destruct (Req_dec_T y 0) as [Hz | _]; [contradiction | reflexivity].
Qed.

Lemma truediv_zero x w :
  truediv x 0 w = (Raise ZeroDivisionError, w).
Proof.
  unfold truediv.
  destruct (Req_dec_T 0 0) as [_ | Hnz]; [reflexivity | now contradict Hnz].
Qed.

Lemma GRAV_eq : GRAV = 98 / 10.
Proof. unfold GRAV. lra. Qed.

Lemma head_sign h : (0 <= h -> 0 <= 2 * GRAV * h) /\ (h < 0 -> 2 * GRAV * h < 0).
Proof. unfold GRAV. split; intros Hh; nra. Qed.

Lemma ControlInput_eval q t w : ControlInput q t w = (Ok (q t), w).
Proof. reflexivity. Qed.

(** [ode] step by step, for an arbitrary callable [flow_in]. *)
Lemma ode_unfold (self : BucketSystem W) t h w :
  ode self t h w =
  match flow_in self t w with
  | (Ok q_in, w1) =>
      match math_sqrt (2 * GRAV * h) w1 with
      | (Ok q_out, w2) => truediv (q_in - q_out) (A (backet self)) w2
      | (Raise e, w2) => (Raise e, w2)
      end
  | (Raise e, w1) => (Raise e, w1)
  end.
Proof. reflexivity. Qed.

(** With a control input, at a non-negative level and a non-zero area
    no guard fires. *)
Lemma ode_value a q t h w :
  0 <= h -> a <> 0 ->
  ode (System a q) t h w = (Ok ((q t - sqrt (2 * GRAV * h)) / a), w).
Proof.
  intros Hh Ha. rewrite ode_unfold. cbn [System flow_in backet A].
  rewrite ControlInput_eval.
  rewrite math_sqrt_nonneg by (apply head_sign; exact Hh).
  now apply truediv_nonzero.
Qed.

(** At a negative level the square root raises, whatever the area. *)
Lemma ode_negative a q t h w :
  h < 0 -> ode (System a q) t h w = (Raise ValueError, w).
Proof.
  intros Hh. rewrite ode_unfold. cbn [System flow_in backet A].
  rewrite ControlInput_eval.
  now rewrite math_sqrt_neg by (apply head_sign; exact Hh).
Qed.

(** With a zero area the division raises once the square root passed. *)
Lemma ode_zero_area q t h w :
  0 <= h -> ode (System 0 q) t h w = (Raise ZeroDivisionError, w).
Proof.
  intros Hh. rewrite ode_unfold. cbn [System flow_in backet A].
  rewrite ControlInput_eval.
  rewrite math_sqrt_nonneg by (apply head_sign; exact Hh).
  apply truediv_zero.
Qed.
End Evaluation.

(** ** The derivative function *)

(** C1.  For every time [t], level [h >= 0], area [a > 0] and control
    input [q], [ode(t, h)] returns exactly
    [(q t - sqrt (2 * g * h)) / a] with [g = 9.8], which is the
    reference law [dh/dt = (Q_in(t) - Q_out(t)) / A] with
    [Q_out = sqrt (2 * g * h)]; the world is left untouched. *)
Theorem ode_is_reference_law
    (W : Type) (q : R -> R) (a t h : R) (w : W) :
  0 <= h -> 0 < a ->
  ode (System a q) t h w = (Ok ((q t - sqrt (2 * 9.8 * h)) / a), w)
  /\ ode (System a q) t h w = (Ok (Reference.dh_dt q a t h), w)
  /\ GRAV = Reference.g.
Proof.
  intros Hh Ha.
  assert (Hg : GRAV = Reference.g) by (unfold GRAV, Reference.g; lra).
  assert (Hv := ode_value a q t h w Hh (Rgt_not_eq _ _ Ha)).
  split; [exact Hv | split; [| exact Hg]].
  rewrite Hv. unfold Reference.dh_dt, Reference.Q_out. now rewrite Hg.
Qed.

Lemma ode_is_reference_law_witness :
  ode (System 5 (fun _ => 10)) 0 2 tt
  = (Ok (Reference.dh_dt (fun _ => 10) 5 0 2), tt).
Proof.
  apply (ode_is_reference_law unit (fun _ => 10) 5 0 2 tt); lra.
Defined.

(** C3.  For every level [h < 0] and every time [t], evaluating
    [ode(t, h)] raises the domain error of the square root, for every
    area, and so returns no value: the level is not clamped to zero
    (a clamped level would give [q t / a]).  The domain error is raised
    exactly when [h < 0]. *)
Theorem ode_negative_level_raises
    (W : Type) (q : R -> R) (a t h : R) (w : W) :
  (h < 0 ->
     ode (System a q) t h w = (Raise DomainError, w)
     /\ forall v w', ode (System a q) t h w <> (Ok v, w'))
  /\ (ode (System a q) t h w = (Raise DomainError, w) -> h < 0).
Proof.
  split.
  - intros Hh. rewrite (ode_negative a q t h w Hh). split; [reflexivity |].
    intros v w' Habs. discriminate Habs.
  - intros Hraise. destruct (Rlt_dec h 0) as [Hneg | Hnn]; [exact Hneg |].
    exfalso. apply Rnot_lt_le in Hnn.
    destruct (Req_dec_T a 0) as [Hz | Hnz].
    + subst a. rewrite ode_zero_area in Hraise by exact Hnn. discriminate Hraise.
    + rewrite ode_value in Hraise by assumption. discriminate Hraise.
Qed.

Lemma ode_negative_level_raises_witness :
  ode (System 5 (fun _ => 10)) 0 (-1) tt = (Raise DomainError, tt).
Proof.
  apply (proj1 (ode_negative_level_raises unit (fun _ => 10) 5 0 (-1) tt)).
  lra.
Defined.

(** C10.  At the empty tank the outflow term is exactly zero, so for
    every time [t], area [a > 0] and control input [q],
    [ode(t, 0) = q t / a]; with a non-negative inflow this derivative is
    non-negative. *)
Theorem ode_at_empty_tank
    (W : Type) (q : R -> R) (a t : R) (w : W) :
  0 < a ->
  math_sqrt (2 * GRAV * 0) w = (Ok 0, w)
  /\ ode (System a q) t 0 w = (Ok (q t / a), w)
  /\ (0 <= q t -> 0 <= q t / a).
Proof.
  intros Ha.
  assert (Hz : 2 * GRAV * 0 = 0) by apply Rmult_0_r.
  split; [| split].
  - rewrite Hz, math_sqrt_nonneg by lra. now rewrite sqrt_0.
  - rewrite ode_value by lra. rewrite Hz, sqrt_0. do 2 f_equal. lra.
  - intros Hq. unfold Rdiv. apply Rmult_le_pos; [exact Hq |].
    left. now apply Rinv_0_lt_compat.
Qed.

Lemma ode_at_empty_tank_witness :
  ode (System 5 (fun _ => 10)) 0 0 tt = (Ok (10 / 5), tt)
  /\ 0 <= 10 / 5.
Proof.
  destruct (ode_at_empty_tank unit (fun _ => 10) 5 0 tt) as (_ & Hode & Hsign);
    [lra |].
  split; [exact Hode | apply Hsign; lra].
Defined.

(** C6.  [ode] is deterministic and stateless.  When the control input
    is stateless at [t], an evaluation of [ode] at [(t, h)] leaves the
    world as it was, its outcome is the same from every world, and so a
    second evaluation after the first gives the same outcome; the
    outcome depends only on [(t, h)], the area and the outcome of the
    control input at [t]. *)
Theorem ode_deterministic
    (W : Type) (self : BucketSystem W) (t h : R) :
  stateless (flow_in self t) ->
  stateless (ode self t h)
  /\ (forall w, ode self t h (snd (ode self t h w)) = ode self t h w)
  /\ (forall (other : BucketSystem W) w w',
        A (backet other) = A (backet self) ->
        fst (flow_in other t w') = fst (flow_in self t w) ->
        fst (ode other t h w') = fst (ode self t h w)).
Proof.
  intros [Hkeep Hsame].
  assert (Hk : forall w, snd (ode self t h w) = w).
  { intros w. rewrite ode_unfold. specialize (Hkeep w).
    destruct (flow_in self t w) as [[q_in | e] w1]; cbn [snd] in *; subst w1;
      [| reflexivity].
    unfold math_sqrt. destruct (Rlt_dec (2 * GRAV * h) 0); [reflexivity |].
    unfold truediv. destruct (Req_dec_T (A (backet self)) 0); reflexivity. }
  assert (Hdep : forall (s1 s2 : BucketSystem W) w1 w2,
             A (backet s1) = A (backet s2) ->
             fst (flow_in s1 t w1) = fst (flow_in s2 t w2) ->
             fst (ode s1 t h w1) = fst (ode s2 t h w2)).
  { intros s1 s2 w1 w2 HA Hq. rewrite !ode_unfold, HA.
    destruct (flow_in s1 t w1) as [[q1 | e1] w1'];
      destruct (flow_in s2 t w2) as [[q2 | e2] w2']; cbn [fst] in Hq;
      try discriminate Hq; injection Hq as ->; [| reflexivity].
    unfold math_sqrt. destruct (Rlt_dec (2 * GRAV * h) 0); [reflexivity |].
    unfold truediv. destruct (Req_dec_T (A (backet s2)) 0); reflexivity. }
  split; [split |]; [exact Hk | | split].
  - intros w w'. apply Hdep; [reflexivity | apply Hsame].
  - intros w. now rewrite Hk.
  - intros other w w' HA Hq. now apply Hdep.
Qed.

Lemma ode_deterministic_witness :
  ode (System 5 (fun _ => 10)) 0 2 (snd (ode (System 5 (fun _ => 10)) 0 2 tt))
  = ode (System 5 (fun _ => 10)) 0 2 tt.
Proof.
  refine (proj1 (proj2 (ode_deterministic unit (System 5 (fun _ => 10)) 0 2 _)) tt).
  split; [intros [] | intros [] []]; reflexivity.
Defined.

(** The hypothesis on the control input is needed: with a callable that
    counts its calls, two evaluations at the same [(t, h)] differ. *)
Example ode_counting_input_differs :
  let self := {| backet := {| A := 1 |}; flow_in := counting_input |} in
  fst (ode self 0 0 0%nat) = Ok 0
  /\ fst (ode self 0 0 (snd (ode self 0 0 0%nat))) = Ok 1.
Proof.
  cbn zeta. rewrite !ode_unfold. cbn [flow_in counting_input backet A].
  assert (Hz : 2 * GRAV * 0 = 0) by apply Rmult_0_r.
  rewrite Hz, !math_sqrt_nonneg by lra. rewrite !truediv_nonzero by lra.
  cbn [fst snd counting_input INR]. rewrite sqrt_0.
  split; f_equal; lra.
Qed.

(** ** Construction of the tank *)

(** C2, as stated, fails: the area [0] satisfies [A <= 0], and
    constructing a [Bucket] with it returns the object instead of
    signalling [ConfigurationError]; the same holds for [-1]. *)
Lemma Bucket_init_accepts_nonpositive_area :
  0 <= 0
  /\ Bucket_init 0 tt = (Ok {| A := 0 |}, tt)
  /\ fst (Bucket_init 0 tt) <> Raise ConfigurationError
  /\ Bucket_init (-1) tt = (Ok {| A := -1 |}, tt)
  /\ fst (Bucket_init (-1) tt) <> Raise ConfigurationError.
Proof.
  split; [apply Rle_refl |].
  repeat split; try reflexivity; cbn [fst Bucket_init]; discriminate.
Qed.

(** C2, amended.  Constructing a [Bucket] validates nothing: for every
    area, also [a <= 0], construction returns a tank that stores [a].
    With [a = 0] the error is deferred to the first use: [ode] at a
    level [h >= 0] raises [ZeroDivisionError]; with [a < 0] [ode]
    returns a value there. *)
Theorem Bucket_init_never_raises
    (W : Type) (a : R) (q : R -> R) (t h : R) (w : W) :
  0 <= h ->
  exists b,
    Bucket_init a w = (Ok b, w)
    /\ A b = a
    /\ (a = 0 ->
        ode {| backet := b; flow_in := ControlInput q |} t h w
        = (Raise ZeroDivisionError, w))
    /\ (a < 0 ->
        ode {| backet := b; flow_in := ControlInput q |} t h w
        = (Ok ((q t - sqrt (2 * GRAV * h)) / a), w)).
Proof.
  intros Hh. exists {| A := a |}.
  split; [reflexivity | split; [reflexivity | split]].
  - intros ->. now apply ode_zero_area.
  - intros Ha. apply ode_value; [exact Hh | lra].
Qed.

Lemma Bucket_init_never_raises_witness :
  exists b,
    Bucket_init 0 tt = (Ok b, tt)
    /\ ode {| backet := b; flow_in := ControlInput (fun _ => 10) |} 0 1 tt
       = (Raise ZeroDivisionError, tt).
Proof.
  destruct (Bucket_init_never_raises unit 0 (fun _ => 10) 0 1 tt)
    as (b & Hinit & _ & Hzero & _); [lra |].
  exists b. split; [exact Hinit | now apply Hzero].
Defined.

(** ** The simulation driver *)

(** The body of [run_simulation] is one call of the solver: both
    constructors return, and the solver's outcome is passed on. *)
Lemma run_simulation_unfold {W} (solve_ivp : solver W) (w : W) :
  run_simulation solve_ivp w = solve_ivp baseline_fun (0, 20) [0.0] 0.01 w.
Proof.
  unfold run_simulation. cbn.
  change (fun (t : R) (h : list R) => M_bind (getitem h 0) _)
    with (@baseline_fun W).
  unfold M_bind, M_ret.
  destruct (solve_ivp baseline_fun (0, 20) [0.0] 0.01 w) as [[r | e] w'];
    reflexivity.
Qed.

(** C4, as stated, fails: [run_simulation] has no [time_span] option.
    Called with [time_span = (5, 5)] or [(10, 2)], whose start is not
    before its end, the call raises [TypeError], not
    [ConfigurationError]. *)
Lemma run_simulation_bad_time_span_is_TypeError :
  ~ 5 < 5
  /\ call_run_simulation underflow_solver []
       [("time_span"%string, VPair (VFloat 5) (VFloat 5))] tt
     = (Raise TypeError, tt)
  /\ call_run_simulation underflow_solver []
       [("time_span"%string, VPair (VFloat 10) (VFloat 2))] tt
     = (Raise TypeError, tt)
  /\ Raise (T := OdeResult) TypeError <> Raise ConfigurationError.
Proof.
  split; [lra |]. repeat split; discriminate.
Qed.

(** C4, amended.  [run_simulation] takes no configuration: a call that
    passes any positional or keyword argument raises [TypeError] before
    the body runs and leaves the world untouched, and the call without
    arguments goes to the solver with the values fixed in the body, the
    time span [(0, 20)], the initial level [0.0] and [max_step = 0.01],
    unvalidated; these values are a valid configuration (start before
    end, non-negative initial level, positive [max_step]). *)
Theorem run_simulation_takes_no_configuration
    (W : Type) (solve_ivp : solver W)
    (args : list value) (kwargs : list (string * value)) (w : W) :
  args <> [] \/ kwargs <> [] ->
  call_run_simulation solve_ivp args kwargs w = (Raise TypeError, w)
  /\ call_run_simulation solve_ivp [] [] w
     = solve_ivp baseline_fun (0, 20) [0.0] 0.01 w
  /\ 0 < 20 /\ 0 <= 0.0 /\ 0 < 0.01.
Proof.
  intros Hargs. split.
  - destruct args as [| v args]; [| reflexivity].
    destruct kwargs as [| kv kwargs]; [| reflexivity].
    destruct Hargs as [Habs | Habs]; now contradict Habs.
  - split; [apply run_simulation_unfold |]. lra.
Qed.

Lemma run_simulation_takes_no_configuration_witness :
  call_run_simulation underflow_solver []
    [("max_step"%string, VFloat 0)] tt
  = (Raise TypeError, tt)
  /\ call_run_simulation underflow_solver [] [] tt
     = underflow_solver baseline_fun (0, 20) [0.0] 0.01 tt.
Proof.
  destruct (run_simulation_takes_no_configuration unit underflow_solver []
              [("max_step"%string, VFloat 0)] tt) as (Hcall & Hbody & _).
  - right. discriminate.
  - split; [exact Hcall | exact Hbody].
Defined.

(** C5.  [run_simulation] invokes the solver once, with the baseline
    scenario: a tank of area [5.0], the constant control input
    [t |-> 10.0], the initial state [[0.0]], the time span [(0, 20)] and
    [max_step = 0.01]; the derivative function it passes is the system's
    [ode] applied to the first component of the state. *)
Theorem run_simulation_invokes_baseline
    (W : Type) (solve_ivp : solver W) (w : W) :
  run_simulation solve_ivp w = solve_ivp baseline_fun (0, 20) [0.0] 0.01 w
  /\ A (backet (@baseline_system W)) = 5.0
  /\ (forall t w', flow_in (@baseline_system W) t w' = (Ok 10.0, w'))
  /\ (forall t h rest w',
        @baseline_fun W t (h :: rest) w' = ode baseline_system t h w')
  /\ snd (run_simulation recording_solver []) = [(0, 20, [0.0], 0.01)].
Proof.
  split; [apply run_simulation_unfold |].
  repeat split.
Qed.

(** C8, as stated, fails: with a solver that evaluates the derivative
    at a negative level and does not catch its exception, the domain
    error reaches the caller of [run_simulation] as a raised exception;
    no result with a success flag is returned. *)
Lemma run_simulation_raises_domain_error :
  run_simulation probing_solver tt = (Raise DomainError, tt)
  /\ forall r, fst (run_simulation probing_solver tt) <> Ok r.
Proof.
  assert (H : run_simulation probing_solver tt = (Raise DomainError, tt)).
  { rewrite run_simulation_unfold. unfold probing_solver, baseline_fun.
    cbn [bind Monad_M map fst getitem nth_error ret].
    unfold M_bind at 1 2. unfold M_ret at 1.
    assert (Hode : ode (@baseline_system unit) 0 (0.0 - 1) tt
                   = (Raise ValueError, tt)).
    { apply (ode_negative 5.0 (fun _ => 10.0)). lra. }
    now rewrite Hode. }
  split; [exact H |]. intros r. rewrite H. discriminate.
Qed.

(** C8, amended.  [run_simulation] passes on the outcome of the solver
    unchanged.  A result the solver returns is returned as it is, with
    its success flag and status code, also when it reports non-success
    termination.  There is no handler in [run_simulation]: an exception
    the solver raises, or lets escape from the derivative function, is
    raised to the caller. *)
Theorem run_simulation_mirrors_solver
    (W : Type) (solve_ivp : solver W) (w w' : W) (o : outcome OdeResult) :
  solve_ivp baseline_fun (0, 20) [0.0] 0.01 w = (o, w') ->
  run_simulation solve_ivp w = (o, w')
  /\ (forall r, o = Ok r -> run_simulation solve_ivp w = (Ok r, w'))
  /\ (forall e, o = Raise e -> run_simulation solve_ivp w = (Raise e, w')).
Proof.
  intros Hsol. rewrite run_simulation_unfold, Hsol.
  split; [reflexivity | split]; intros x ->; reflexivity.
Qed.

Lemma run_simulation_mirrors_solver_witness :
  exists r,
    run_simulation underflow_solver tt = (Ok r, tt)
    /\ success r = false /\ status r = (-1)%Z.
Proof.
  eexists. split.
  - apply (run_simulation_mirrors_solver unit underflow_solver tt tt).
    reflexivity.
  - split; reflexivity.
Defined.

(** * Further properties of the plant model and of the driver *)

(** ** Effects of [ode] *)

(** X2.  For an arbitrary callable [flow_in], the only effect of [ode]
    on the world is that of its one call of [flow_in]; and when that
    call raises, [ode] raises the same exception, whatever the level
    and the area are (also at [h < 0] or [A = 0]). *)
Theorem ode_effect_is_flow_in
    (W : Type) (self : BucketSystem W) (t h : R) (w : W) :
  snd (ode self t h w) = snd (flow_in self t w)
  /\ (forall e, fst (flow_in self t w) = Raise e ->
        fst (ode self t h w) = Raise e).
Proof.
  rewrite ode_unfold.
  destruct (flow_in self t w) as [[q_in | e0] w1]; cbn [fst snd].
  - split; [| intros e He; discriminate He].
    unfold math_sqrt. destruct (Rlt_dec (2 * GRAV * h) 0); [reflexivity |].
    unfold truediv. destruct (Req_dec_T (A (backet self)) 0); reflexivity.
  - split; [reflexivity | intros e He; exact He].
Qed.

(** ** The derivative function handed to the solver *)

(** X10.  The function [run_simulation] passes to the solver,
    [lambda t, h: system.ode(t, h[0])], raises [IndexError] on an empty
    state, raises [ValueError] when the first component is negative,
    and otherwise returns [(10 - sqrt (19.6 * h[0])) / 5]; it ignores
    the time and the further components, never divides by zero and
    leaves the world as it was. *)
Theorem baseline_fun_outcome (W : Type) (t : R) (w : W) :
  baseline_fun t [] w = (Raise IndexError, w)
  /\ (forall h rest, h < 0 ->
        baseline_fun t (h :: rest) w = (Raise ValueError, w))
  /\ (forall h rest, 0 <= h ->
        baseline_fun t (h :: rest) w = (Ok ((10 - sqrt (19.6 * h)) / 5), w)).
Proof.
  split; [reflexivity | split]; intros h rest Hh.
  - change (baseline_fun t (h :: rest) w)
      with (ode (System 5.0 (fun _ => 10.0)) t h w).
    now apply ode_negative.
  - change (baseline_fun t (h :: rest) w)
      with (ode (System 5.0 (fun _ => 10.0)) t h w).
    rewrite ode_value by lra.
    do 3 f_equal; [| lra]. f_equal; [lra |]. f_equal. rewrite GRAV_eq. lra.
Qed.

(** * The exact law and the binary64 code *)

(** ** The reference law over the real numbers *)



(** ** Rounding in the binary64 specification *)

Section Rounding.
Import SpecFloat FloatOps.
Local Open Scope Z_scope.

Lemma digits2_log2 (p : positive) :
  Zpos (digits2_pos p) = Z.log2 (Zpos p) + 1.
Proof.
  assert (Hsize : forall q, digits2_pos q = Pos.size q).
  { induction q as [q IH | q IH |]; cbn; now rewrite ?IH. }
  destruct p as [p | p |]; cbn [digits2_pos Z.log2]; rewrite ?Hsize; lia.
Qed.

(** One step of the right shift removes one binary digit. *)
Lemma shr_1_digits (mrs : shr_record) :
  0 <= shr_m mrs ->
  0 <= shr_m (shr_1 mrs)
  /\ Zdigits2 (shr_m (shr_1 mrs)) = Z.max 0 (Zdigits2 (shr_m mrs) - 1).
Proof.
  destruct mrs as [m r s]. cbn [shr_m]. intros Hm.
  destruct m as [| [p | p |] | p]; cbn [shr_1 shr_m Zdigits2 digits2_pos]; lia.
Qed.

Lemma iter_shr_1_digits (n : positive) : forall mrs,
  0 <= shr_m mrs ->
  0 <= shr_m (iter_pos shr_1 n mrs)
  /\ Zdigits2 (shr_m (iter_pos shr_1 n mrs))
     = Z.max 0 (Zdigits2 (shr_m mrs) - Zpos n).
Proof.
  induction n as [n IH | n IH |]; intros mrs Hm; cbn [iter_pos].
  - destruct (shr_1_digits mrs Hm) as [H1 D1].
    destruct (IH _ H1) as [H2 D2]. destruct (IH _ H2) as [H3 D3].
    split; [exact H3 |]. rewrite D3, D2, D1. lia.
  - destruct (IH _ Hm) as [H2 D2]. destruct (IH _ H2) as [H3 D3].
    split; [exact H3 |]. rewrite D3, D2. lia.
  - apply shr_1_digits; exact Hm.
Qed.

Lemma shr_digits (mrs : shr_record) (e n : Z) :
  0 <= shr_m mrs ->
  0 <= shr_m (fst (shr mrs e n))
  /\ Zdigits2 (shr_m (fst (shr mrs e n)))
     = Z.max 0 (Zdigits2 (shr_m mrs) - Z.max 0 n)
  /\ snd (shr mrs e n) = e + Z.max 0 n.
Proof.
  intros Hm.
  assert (Hd : 0 <= Zdigits2 (shr_m mrs)) by (destruct (shr_m mrs); cbn; lia).
  destruct n as [| p | p]; cbn [shr fst snd].
  - repeat split; lia.
  - destruct (iter_shr_1_digits p mrs Hm) as [H D]. repeat split; lia.
  - repeat split; lia.
Qed.

Lemma Zdigits2_positive (m : Z) :
  0 <= m -> 1 <= Zdigits2 m -> exists p, m = Zpos p.
Proof.
  intros Hm Hd. destruct m as [| p | p]; cbn [Zdigits2] in Hd; try lia.
  now exists p.
Qed.

Lemma round_nearest_even_ge (m : Z) (l : location) :
  m <= round_nearest_even m l.
Proof.
  destruct l as [| [ | | ]]; cbn [round_nearest_even]; try lia.
  destruct (Z.even m); lia.
Qed.

(** Rounding an exact non-zero value of at least [2^-1074], the smallest
    positive binary64 number, keeps the sign and gives neither a zero
    nor not-a-number. *)
Lemma binary_round_aux_shape (sx : bool) (mx : positive) (ex : Z) :
  -1074 < Zpos (digits2_pos mx) + ex ->
  (exists m' e', binary_round_aux prec emax sx (Zpos mx) ex loc_Exact
                 = S754_finite sx m' e')
  \/ binary_round_aux prec emax sx (Zpos mx) ex loc_Exact = S754_infinity sx.
Proof.
  intros Hbig. unfold binary_round_aux, shr_fexp.
  change (shr_record_of_loc (Zpos mx) loc_Exact)
    with {| shr_m := Zpos mx; shr_r := false; shr_s := false |}.
  set (n := fexp prec emax (Zdigits2 (Zpos mx) + ex) - ex).
  assert (Hn : n = Z.max (Zpos (digits2_pos mx) + ex - 53) (-1074) - ex)
    by reflexivity.
  pose proof (shr_digits {| shr_m := Zpos mx; shr_r := false; shr_s := false |}
                ex n) as H1.
  cbn [shr_m] in H1. specialize (H1 (Pos2Z.is_nonneg mx)).
  destruct (shr {| shr_m := Zpos mx; shr_r := false; shr_s := false |} ex n)
    as [mrs' e'].
  cbn [fst snd Zdigits2] in H1. destruct H1 as (Hm1 & Hd1 & He1).
  set (m2 := round_nearest_even (shr_m mrs') (loc_of_shr_record mrs')).
  pose proof (round_nearest_even_ge (shr_m mrs') (loc_of_shr_record mrs')) as Hm2.
  fold m2 in Hm2.
  destruct (Zdigits2_positive (shr_m mrs') Hm1) as [p1 Hp1]; [lia |].
  assert (Hp2 : exists p2, m2 = Zpos p2).
  { destruct m2 as [| p2 | p2]; try lia. now exists p2. }
  destruct Hp2 as [p2 Hp2]. rewrite Hp2.
  change (shr_record_of_loc (Zpos p2) loc_Exact)
    with {| shr_m := Zpos p2; shr_r := false; shr_s := false |}.
  set (n2 := fexp prec emax (Zdigits2 (Zpos p2) + e') - e').
  assert (Hn2 : n2 = Z.max (Zpos (digits2_pos p2) + e' - 53) (-1074) - e')
    by reflexivity.
  pose proof (shr_digits {| shr_m := Zpos p2; shr_r := false; shr_s := false |}
                e' n2) as H2.
  cbn [shr_m] in H2. specialize (H2 (Pos2Z.is_nonneg p2)).
  destruct (shr {| shr_m := Zpos p2; shr_r := false; shr_s := false |} e' n2)
    as [mrs'' e''].
  cbn [fst snd Zdigits2] in H2. destruct H2 as (Hm3 & Hd3 & He3).
  destruct (Zdigits2_positive (shr_m mrs'') Hm3) as [p3 Hp3]; [lia |].
  rewrite Hp3. destruct (e'' <=? emax - prec).
  - left. now exists p3, e''.
  - now right.
Qed.

(** The mantissa and exponent of a valid finite number: the exponent is
    at least [-1074]. *)
Lemma valid_finite_exponent (s : bool) (m : positive) (e : Z) :
  valid_binary prec emax (S754_finite s m e) = true -> -1074 <= e.
Proof.
  cbn [valid_binary]. unfold bounded, canonical_mantissa.
  intros Hv. apply andb_prop in Hv. destruct Hv as [Hc _].
  apply Z.eqb_eq in Hc.
  change (fexp prec emax (Zpos (digits2_pos m) + e))
    with (Z.max (Zpos (digits2_pos m) + e - 53) (-1074)) in Hc.
  lia.
Qed.
End Rounding.

(** ** Evaluation of the binary64 [ode] *)

Section Binary64Evaluation.
Import PrimFloat SpecFloat FloatOps FloatAxioms.

(** [ode] step by step for a control input. *)
Lemma Binary64_ode_eval {W} (q : float -> float) (a t h : float) (w : W) :
  Binary64.ode (Binary64.System a q) t h w =
  if (2 * Binary64.GRAV * h <? 0)%float then (Raise ValueError, w)
  else if (a =? 0)%float then (Raise ZeroDivisionError, w)
  else (Ok ((q t - sqrt (2 * Binary64.GRAV * h)) / a)%float, w).
Proof.
  unfold Binary64.ode, Binary64.System, Binary64.ControlInput,
    Binary64.math_sqrt, Binary64.truediv.
  cbn [Binary64.flow_in Binary64.backet Binary64.A bind ret Monad_M].
  unfold M_bind at 1. unfold M_ret at 1. unfold M_bind.
  destruct (2 * Binary64.GRAV * h <? 0)%float; [reflexivity |].
  cbn. destruct (a =? 0)%float; reflexivity.
Qed.



(** The argument of the square root, [2 * GRAV * h], is negative exactly
    when the level is: multiplying by [19.6] keeps the sign and cannot
    underflow to zero. *)
Lemma head_ltb (h : float) :
  (2 * Binary64.GRAV * h <? 0)%float = (h <? 0)%float.
Proof.
  rewrite !ltb_spec, mul_spec.
  change (Prim2SF (2 * Binary64.GRAV))
    with (S754_finite false 5516909543528858 (-48)).
  change (Prim2SF 0) with (S754_zero false).
  pose proof (Prim2SF_valid h) as Hv.
  destruct (Prim2SF h) as [s | s | | s m e].
  - destruct s; reflexivity.
  - destruct s; reflexivity.
  - reflexivity.
  - apply valid_finite_exponent in Hv.
    unfold SF64mul, SFmul. cbn [xorb].
    destruct (binary_round_aux_shape s (5516909543528858 * m) (-48 + e))
      as [(m' & e' & ->) | ->].
    + rewrite digits2_log2.
      assert (Hlog : (Z.log2 5516909543528858 <= Z.log2 (Zpos (5516909543528858 * m)))%Z).
      { apply Z.log2_le_mono. nia. }
      change (Z.log2 5516909543528858) with 52%Z in Hlog. lia.
    + destruct s; reflexivity.
    + destruct s; reflexivity.
Qed.


End Binary64Evaluation.

(** ** Outcomes of the binary64 [ode] *)

Section Binary64Claims.
Import PrimFloat.

(** X1.  For float arguments and a control input, [ode] raises
    [ValueError] exactly when the level compares below zero; otherwise
    it raises [ZeroDivisionError] when the area equals zero and returns
    [(q t - sqrt (2 * GRAV * h)) / a] when it does not.  A level that is
    not a number compares below nothing, so it is not rejected; no other
    exception is raised. *)
Theorem binary64_ode_outcome_cases
    (W : Type) (q : float -> float) (a t h : float) (w : W) :
  ((h <? 0)%float = true ->
     Binary64.ode (Binary64.System a q) t h w = (Raise ValueError, w))
  /\ ((h <? 0)%float = false -> (a =? 0)%float = true ->
        Binary64.ode (Binary64.System a q) t h w = (Raise ZeroDivisionError, w))
  /\ ((h <? 0)%float = false -> (a =? 0)%float = false ->
        Binary64.ode (Binary64.System a q) t h w
        = (Ok ((q t - sqrt (2 * Binary64.GRAV * h)) / a)%float, w))
  /\ (forall e w', Binary64.ode (Binary64.System a q) t h w = (Raise e, w') ->
        e = ValueError \/ e = ZeroDivisionError).
Proof.
  rewrite Binary64_ode_eval, head_ltb.
  destruct (h <? 0)%float; [| destruct (a =? 0)%float].
  - repeat split; try discriminate. intros e w' He. left. now injection He as <- _.
  - repeat split; try discriminate. intros e w' He. right. now injection He as <- _.
  - repeat split; try discriminate.
Qed.

Lemma binary64_ode_outcome_cases_witness :
  Binary64.ode (Binary64.System 5 (fun _ => 10%float)) 0 nan tt = (Ok nan, tt)
  /\ Binary64.ode (Binary64.System 5 (fun _ => 10%float)) 0 neg_infinity tt
     = (Raise ValueError, tt).
Proof.
  split.
  - exact (proj1 (proj2 (proj2
      (binary64_ode_outcome_cases unit (fun _ => 10%float) 5 0 nan tt)))
      eq_refl eq_refl).
  - exact (proj1
      (binary64_ode_outcome_cases unit (fun _ => 10%float) 5 0 neg_infinity tt)
      eq_refl).
Defined.

(** ** The equilibrium level *)




(** ** Monotonicity in the level *)



End Binary64Claims.
